(** * CardBody: the themed card container of the hyperglass UI

    A shallow embedding of [hyperglass/ui/components/Card/body.tsx].
    The component is a React function component: it takes a props object,
    reads the ambient colour mode through the [useColorValue] hook (twice)
    and returns one [Flex] element whose attribute object is an object
    literal followed by a spread of the caller's remaining props.

    JavaScript objects are finite maps from property names to values
    (enumeration order is not modelled: none of the properties below
    depends on it); the hook reads are state-passing computations over the
    ambient world, so that "reads but does not write" is a statement and
    not a convention. *)

From stdpp Require Import gmap strings fin_maps.

(** ** JavaScript values *)

(** Property values as the component sees them: it never inspects a value,
    it only moves them around.  Functions and objects are compared by
    reference, hence the handles; numbers are integers (no attribute of
    this component is computed arithmetically). *)
Inductive JSValue : Type :=
| JUndefined
| JNull
| JBool (b : bool)
| JNumber (n : Z)
| JString (s : string)
| JFunction (ref : positive)
| JObject (ref : positive).

(** A props / attribute object. *)
Abbreviation Props := (gmap string JSValue).

(** [o.k]: reading a property that is absent yields [undefined]. *)
Definition get (o : Props) (k : string) : JSValue :=
  default JUndefined (o !! k).

(** [const { k, ...rest } = o]: the named property is read, and [rest]
    receives every own property of [o] except [k]. *)
Definition destructure (k : string) (o : Props) : JSValue * Props :=
  (get o k, delete k o).

(** An object literal [{ k1: v1, k2: v2, ... }] (equally: a run of JSX
    attributes), written left to right; a later entry overwrites an
    earlier one with the same name. *)
Definition attrs (l : list (string * JSValue)) : Props :=
  foldl (fun o kv => <[kv.1 := kv.2]> o) ∅ l.

(** [{ ...target, ...src }]: every own property of [src] is written onto
    [target], last write wins. *)
Definition spread (target src : Props) : Props :=
  src ∪ target.

(** ** Elements *)

(** The only element type the file creates, imported from the component
    library. *)
Inductive Component : Type :=
| Flex.

Record Element : Type := jsx {
  elType : Component;
  elProps : Props
}.

(** ** The ambient theme mode *)

(** Modelled from the spec: the colour mode and its provider live in the
    module [~/context], which [body.tsx] only imports.  The mode is an
    enumeration of exactly two members. *)
Inductive ThemeMode : Type :=
| Light
| Dark.

(** Modelled from the spec: the theme-mode provider, an external
    collaborator that "exposes a read accessor returning the current
    ThemeMode".  [World] is whatever ambient state a render runs in. *)
Class Ambient (World : Type) : Type := {
  colorMode : World -> ThemeMode
}.

(** A render-time computation: it runs in a world and hands back a result
    together with the world it leaves behind. *)
Definition Render (World A : Type) : Type := World -> A * World.

Definition ret {World A : Type} (a : A) : Render World A :=
  fun w => (a, w).

Definition bind {World A B : Type}
    (m : Render World A) (k : A -> Render World B) : Render World B :=
  fun w => let '(a, w') := m w in k a w'.

Notation "'use' x '<-' m ';' k" := (bind m (fun x => k))
  (at level 10, x name, m at level 100, k at level 200,
   format "'[v' 'use'  x  '<-'  m ';' '/' k ']'").

(** Modelled from the spec: the hook [useColorValue] from [~/context],
    "a selector function resolve(lightValue, darkValue) -> value equal to
    return lightValue if mode is Light else darkValue".  It reads the
    world and leaves it as it found it. *)
Definition useColorValue {World : Type} `{Ambient World} {A : Type}
    (light dark : A) : Render World A :=
  fun w => (match colorMode w with Light => light | Dark => dark end, w).

(** The mode that is not the given one. *)
Definition opposite (m : ThemeMode) : ThemeMode :=
  match m with Light => Dark | Dark => Light end.

(** ** The component *)

(** The attributes written before the spread, in source order, as a
    function of the three locals they mention. *)
Definition defaultAttrs (bg color onClick : JSValue) : Props :=
  attrs [ ("bg", bg);
          ("w", JString "100%");
          ("maxW", JString "100%");
          ("rounded", JString "md");
          ("color", color);
          ("onClick", onClick);
          ("overflow", JString "hidden");
          ("borderWidth", JString "1px");
          ("direction", JString "column") ].

(** [export const CardBody = (props: ICardBody) => { ... }] *)
Definition CardBody {World : Type} `{Ambient World}
    (props : Props) : Render World Element :=
  let '(onClick, rest) := destructure "onClick" props in
  use bg <- useColorValue (JString "white") (JString "original.dark");
  use color <- useColorValue (JString "original.dark") (JString "white");
  ret (jsx Flex (spread (defaultAttrs bg color onClick) rest)).

(** The literal part of the attribute object of one render: [defaultAttrs]
    at the values the three locals take for [props] in world [w].  These
    are the computed defaults, before the caller's props are spread. *)
Definition computedAttrs {World : Type} `{Ambient World}
    (props : Props) (w : World) : Props :=
  defaultAttrs
    (fst (useColorValue (JString "white") (JString "original.dark") w))
    (fst (useColorValue (JString "original.dark") (JString "white") w))
    (fst (destructure "onClick" props)).

(** The names for which the component writes an attribute of its own. *)
Definition ownNames : list string :=
  ["bg"; "w"; "maxW"; "rounded"; "color"; "onClick"; "overflow";
   "borderWidth"; "direction"].

(** The names of the computed defaults a caller may collide with. *)
Definition overridable : list string :=
  ["bg"; "color"; "w"; "maxW"; "rounded"; "borderWidth"; "overflow";
   "direction"].

(** A concrete world for running the component: the colour mode next to
    some unrelated ambient state. *)
Record AppState : Type := {
  appMode : ThemeMode;
  appTick : nat
}.

#[export] Instance AppState_ambient : Ambient AppState :=
  {| colorMode := appMode |}.

Definition lightWorld : AppState := {| appMode := Light; appTick := 7 |}.
Definition darkWorld : AppState := {| appMode := Dark; appTick := 7 |}.
Definition laterLightWorld : AppState := {| appMode := Light; appTick := 8 |}.

(** [<CardBody p={4} bg="red.500" onClick={handler} />] *)
Definition loudProps : Props :=
  attrs [("p", JNumber 4); ("bg", JString "red.500"); ("onClick", JFunction 1)].

(** [<CardBody p={4} borderColor="gray.200" />] *)
Definition quietProps : Props :=
  attrs [("p", JNumber 4); ("borderColor", JString "gray.200")].

(** * Properties *)

(** ** Sample renders *)

Example run_quiet_light :
  fst (CardBody quietProps lightWorld) =
  jsx Flex
    (attrs [ ("bg", JString "white"); ("w", JString "100%");
             ("maxW", JString "100%"); ("rounded", JString "md");
             ("color", JString "original.dark"); ("onClick", JUndefined);
             ("overflow", JString "hidden"); ("borderWidth", JString "1px");
             ("direction", JString "column");
             ("p", JNumber 4); ("borderColor", JString "gray.200") ]).
Proof. vm_compute. reflexivity. Qed.

Example run_loud_dark :
  fst (CardBody loudProps darkWorld) =
  jsx Flex
    (attrs [ ("bg", JString "red.500"); ("w", JString "100%");
             ("maxW", JString "100%"); ("rounded", JString "md");
             ("color", JString "white"); ("onClick", JFunction 1);
             ("overflow", JString "hidden"); ("borderWidth", JString "1px");
             ("direction", JString "column"); ("p", JNumber 4) ]).
Proof. vm_compute. reflexivity. Qed.

(** ** Object operations *)

(** Case analysis on membership in a literal list of names. *)
Ltac each_name H :=
  repeat (apply elem_of_cons in H as [-> | H]);
  [.. | apply elem_of_nil in H; contradiction].

Lemma lookup_spread (target src : Props) (k : string) :
  spread target src !! k =
  match src !! k with Some v => Some v | None => target !! k end.
Proof.
  unfold spread. rewrite lookup_union.
  destruct (src !! k), (target !! k); reflexivity.
Qed.

Lemma destructure_rest (k : string) (o : Props) (j : string) :
  snd (destructure k o) !! j = if decide (k = j) then None else o !! j.
Proof. unfold destructure; simpl. apply lookup_delete. Qed.

Lemma lookup_defaultAttrs (bg color onClick : JSValue) (k : string) :
  defaultAttrs bg color onClick !! k =
  if decide (k = "bg") then Some bg
  else if decide (k = "w") then Some (JString "100%")
  else if decide (k = "maxW") then Some (JString "100%")
  else if decide (k = "rounded") then Some (JString "md")
  else if decide (k = "color") then Some color
  else if decide (k = "onClick") then Some onClick
  else if decide (k = "overflow") then Some (JString "hidden")
  else if decide (k = "borderWidth") then Some (JString "1px")
  else if decide (k = "direction") then Some (JString "column")
  else None.
Proof.
  unfold defaultAttrs, attrs; simpl.
  repeat (case_decide; [subst k; reflexivity |]).
  rewrite !lookup_insert_ne by congruence.
  apply lookup_empty.
Qed.

(** ** Running the component *)

Section Run.
Context {World : Type} `{Ambient World}.

(** A colour resolution is a value of the mode alone. *)
Lemma useColorValue_run {A : Type} (light dark : A) (w : World) :
  useColorValue light dark w =
  (match colorMode w with Light => light | Dark => dark end, w).
Proof. reflexivity. Qed.

(** One render, unfolded: the element carries the computed attributes
    with the caller's remaining props spread over them, and the world
    comes back as it went in. *)
Lemma CardBody_run (props : Props) (w : World) :
  CardBody props w =
  (jsx Flex (spread (computedAttrs props w) (snd (destructure "onClick" props))),
   w).
Proof. reflexivity. Qed.

Lemma lookup_computedAttrs (props : Props) (w : World) (k : string) :
  computedAttrs props w !! k =
  if decide (k = "bg") then
    Some (match colorMode w with
          | Light => JString "white" | Dark => JString "original.dark" end)
  else if decide (k = "w") then Some (JString "100%")
  else if decide (k = "maxW") then Some (JString "100%")
  else if decide (k = "rounded") then Some (JString "md")
  else if decide (k = "color") then
    Some (match colorMode w with
          | Light => JString "original.dark" | Dark => JString "white" end)
  else if decide (k = "onClick") then Some (get props "onClick")
  else if decide (k = "overflow") then Some (JString "hidden")
  else if decide (k = "borderWidth") then Some (JString "1px")
  else if decide (k = "direction") then Some (JString "column")
  else None.
Proof. unfold computedAttrs. apply lookup_defaultAttrs. Qed.

(** Every attribute of the rendered element, name by name: the forwarded
    callback under [onClick]; elsewhere the caller's value when the
    caller has one, and the computed one otherwise. *)
Lemma CardBody_lookup (props : Props) (w : World) (k : string) :
  elProps (fst (CardBody props w)) !! k =
  if decide (k = "onClick") then Some (get props "onClick")
  else match props !! k with
       | Some v => Some v
       | None => computedAttrs props w !! k
       end.
Proof.
  rewrite CardBody_run; simpl.
  rewrite lookup_spread, lookup_delete.
  case_decide as Hk.
  - subst k. rewrite decide_True by reflexivity.
    rewrite lookup_computedAttrs; reflexivity.
  - rewrite decide_False by congruence. reflexivity.
Qed.

(** A name the caller does not use keeps the computed attribute. *)
Lemma CardBody_lookup_default (props : Props) (w : World) (k : string) (d : JSValue) :
  k <> "onClick" ->
  computedAttrs props w !! k = Some d ->
  elProps (fst (CardBody props w)) !! k = Some (default d (props !! k)).
Proof.
  intros Hk Hd. rewrite CardBody_lookup, decide_False by exact Hk.
  destruct (props !! k); [reflexivity | exact Hd].
Qed.

Lemma dom_computedAttrs (props : Props) (w : World) :
  dom (computedAttrs props w) = list_to_set ownNames.
Proof.
  unfold computedAttrs, defaultAttrs, attrs, ownNames; simpl.
  rewrite !dom_insert_L, dom_empty_L.
  rewrite !(right_id_L ∅ (∪)), !(assoc_L (∪)).
  repeat (f_equal; try apply (comm_L (∪))).
Qed.

End Run.

(** ** Colours *)

Section Colours.
Context {World : Type} `{Ambient World}.

(** C1.  In Light mode the background resolves to white and the text
    colour to ['original.dark'], whatever the props: these are the two
    values the hook hands to the component, the values of the computed
    [bg] and [color] attributes, and the values the rendered element
    carries under those names unless the caller put its own there. *)
Theorem CardBody_light (props : Props) (w : World) :
  colorMode w = Light ->
  fst (useColorValue (JString "white") (JString "original.dark") w)
    = JString "white" /\
  fst (useColorValue (JString "original.dark") (JString "white") w)
    = JString "original.dark" /\
  computedAttrs props w !! "bg" = Some (JString "white") /\
  computedAttrs props w !! "color" = Some (JString "original.dark") /\
  elProps (fst (CardBody props w)) !! "bg"
    = Some (default (JString "white") (props !! "bg")) /\
  elProps (fst (CardBody props w)) !! "color"
    = Some (default (JString "original.dark") (props !! "color")).
Proof.
  intros Hmode.
  assert (Hbg : computedAttrs props w !! "bg" = Some (JString "white"))
    by (rewrite lookup_computedAttrs, Hmode; reflexivity).
  assert (Hfg : computedAttrs props w !! "color" = Some (JString "original.dark"))
    by (rewrite lookup_computedAttrs, Hmode; reflexivity).
  rewrite !useColorValue_run, Hmode; simpl.
  repeat split; try assumption.
  - apply CardBody_lookup_default; [discriminate | exact Hbg].
  - apply CardBody_lookup_default; [discriminate | exact Hfg].
Qed.

(** C2.  In Dark mode the background resolves to ['original.dark'] and
    the text colour to white; and in every mode the text colour is the
    background of the other mode (and the other way round), both as
    resolved by the hook and as carried by the computed attributes. *)
Theorem CardBody_dark_mirror (props : Props) (w : World) :
  (colorMode w = Dark ->
     fst (useColorValue (JString "white") (JString "original.dark") w)
       = JString "original.dark" /\
     fst (useColorValue (JString "original.dark") (JString "white") w)
       = JString "white" /\
     computedAttrs props w !! "bg" = Some (JString "original.dark") /\
     computedAttrs props w !! "color" = Some (JString "white") /\
     elProps (fst (CardBody props w)) !! "bg"
       = Some (default (JString "original.dark") (props !! "bg")) /\
     elProps (fst (CardBody props w)) !! "color"
       = Some (default (JString "white") (props !! "color"))) /\
  (forall (props' : Props) (w' : World),
     colorMode w' = opposite (colorMode w) ->
     fst (useColorValue (JString "original.dark") (JString "white") w)
       = fst (useColorValue (JString "white") (JString "original.dark") w') /\
     computedAttrs props w !! "color" = computedAttrs props' w' !! "bg" /\
     computedAttrs props w !! "bg" = computedAttrs props' w' !! "color").
Proof.
  split.
  - intros Hmode.
    assert (Hbg : computedAttrs props w !! "bg" = Some (JString "original.dark"))
      by (rewrite lookup_computedAttrs, Hmode; reflexivity).
    assert (Hfg : computedAttrs props w !! "color" = Some (JString "white"))
      by (rewrite lookup_computedAttrs, Hmode; reflexivity).
    rewrite !useColorValue_run, Hmode; simpl.
    repeat split; try assumption.
    + apply CardBody_lookup_default; [discriminate | exact Hbg].
    + apply CardBody_lookup_default; [discriminate | exact Hfg].
  - intros props' w' Hopp.
    rewrite !lookup_computedAttrs, !useColorValue_run, Hopp; simpl.
    destruct (colorMode w); simpl; repeat split.
Qed.

(** C8.  The resolver is defined in both modes, and there are only those
    two: it returns the light value when the mode is Light and the dark
    value otherwise, so that, the two values being different, the light
    one comes back exactly in Light mode.  No third case exists. *)
Theorem useColorValue_total {A : Type} (light dark : A) (w : World) :
  (colorMode w = Light \/ colorMode w = Dark) /\
  (colorMode w = Light -> fst (useColorValue light dark w) = light) /\
  (colorMode w <> Light -> fst (useColorValue light dark w) = dark) /\
  (fst (useColorValue light dark w) = light \/
   fst (useColorValue light dark w) = dark) /\
  (light <> dark ->
     (fst (useColorValue light dark w) = light <-> colorMode w = Light)).
Proof.
  rewrite useColorValue_run; simpl.
  destruct (colorMode w); repeat split; intros; auto; try congruence.
Qed.

End Colours.

(** ** Merging with the caller's props *)

Section Merge.
Context {World : Type} `{Ambient World}.

(** C3.  A caller's attribute under one of the eight names bg, color, w,
    maxW, rounded, borderWidth, overflow, direction collides with a
    computed default, and the rendered element carries the caller's
    value: the attribute object is the computed attributes with the
    caller's remaining props spread over them, last write wins. *)
Theorem CardBody_caller_overrides (props : Props) (w : World)
    (k : string) (v : JSValue) :
  k ∈ overridable ->
  props !! k = Some v ->
  is_Some (computedAttrs props w !! k) /\
  elProps (fst (CardBody props w))
    = spread (computedAttrs props w) (snd (destructure "onClick" props)) /\
  snd (destructure "onClick" props) !! k = Some v /\
  elProps (fst (CardBody props w)) !! k = Some v.
Proof.
  intros Hk Hv.
  assert (Hne : k <> "onClick").
  { intros ->. revert Hk. compute_done. }
  assert (Hdom : k ∈ dom (computedAttrs props w)).
  { rewrite dom_computedAttrs. clear Hv Hne.
    each_name Hk; compute_done. }
  repeat apply conj.
  - apply elem_of_dom, Hdom.
  - rewrite CardBody_run. reflexivity.
  - rewrite destructure_rest, decide_False by congruence. exact Hv.
  - rewrite CardBody_lookup, decide_False, Hv by exact Hne. reflexivity.
Qed.

(** C4.  Whatever the props and the mode, the computed structural
    defaults are w = 100%, maxW = 100%, rounded = md, borderWidth = 1px,
    overflow = hidden and direction = column; the rendered element
    carries each of them unless the caller put its own value there. *)
Theorem CardBody_structural_defaults (props : Props) (w : World) :
  (computedAttrs props w !! "w" = Some (JString "100%") /\
   computedAttrs props w !! "maxW" = Some (JString "100%") /\
   computedAttrs props w !! "rounded" = Some (JString "md") /\
   computedAttrs props w !! "borderWidth" = Some (JString "1px") /\
   computedAttrs props w !! "overflow" = Some (JString "hidden") /\
   computedAttrs props w !! "direction" = Some (JString "column")) /\
  (elProps (fst (CardBody props w)) !! "w"
     = Some (default (JString "100%") (props !! "w")) /\
   elProps (fst (CardBody props w)) !! "maxW"
     = Some (default (JString "100%") (props !! "maxW")) /\
   elProps (fst (CardBody props w)) !! "rounded"
     = Some (default (JString "md") (props !! "rounded")) /\
   elProps (fst (CardBody props w)) !! "borderWidth"
     = Some (default (JString "1px") (props !! "borderWidth")) /\
   elProps (fst (CardBody props w)) !! "overflow"
     = Some (default (JString "hidden") (props !! "overflow")) /\
   elProps (fst (CardBody props w)) !! "direction"
     = Some (default (JString "column") (props !! "direction"))).
Proof.
  split.
  - repeat split; rewrite lookup_computedAttrs; reflexivity.
  - repeat split;
      (apply CardBody_lookup_default;
       [discriminate | rewrite lookup_computedAttrs; reflexivity]).
Qed.

(** C5.  The [onClick] attribute of the rendered element is the caller's
    [onClick], read once from the props: a callback the caller supplied
    is forwarded as it is, and without one the attribute is [undefined],
    which attaches no handler. *)
Theorem CardBody_onClick_forwarded (props : Props) (w : World) :
  elProps (fst (CardBody props w)) !! "onClick" = Some (get props "onClick") /\
  (forall f : JSValue,
     props !! "onClick" = Some f ->
     elProps (fst (CardBody props w)) !! "onClick" = Some f /\
     get (elProps (fst (CardBody props w))) "onClick" = f) /\
  (props !! "onClick" = None ->
     elProps (fst (CardBody props w)) !! "onClick" = Some JUndefined /\
     get (elProps (fst (CardBody props w))) "onClick" = JUndefined).
Proof.
  assert (Hon : elProps (fst (CardBody props w)) !! "onClick"
                = Some (get props "onClick"))
    by (rewrite CardBody_lookup; reflexivity).
  assert (Hget : get (elProps (fst (CardBody props w))) "onClick"
                 = get props "onClick")
    by (unfold get at 1; rewrite Hon; reflexivity).
  rewrite Hon, Hget. unfold get.
  split; [reflexivity |].
  split.
  - intros f Hf. rewrite Hf. split; reflexivity.
  - intros Hnone. rewrite Hnone. split; reflexivity.
Qed.

(** C9.  The callback is taken out of the props before the rest is
    spread: the rest has no [onClick] property and is otherwise the
    props, so the [onClick] the literal wrote before the spread is the
    one the element ends up with, namely [props.onClick]. *)
Theorem CardBody_rest_has_no_onClick (props : Props) (w : World) :
  snd (destructure "onClick" props) !! "onClick" = None /\
  ("onClick" ∉ dom (snd (destructure "onClick" props))) /\
  (forall k : string,
     k <> "onClick" -> snd (destructure "onClick" props) !! k = props !! k) /\
  fst (destructure "onClick" props) = get props "onClick" /\
  elProps (fst (CardBody props w))
    = spread (computedAttrs props w) (snd (destructure "onClick" props)) /\
  computedAttrs props w !! "onClick" = Some (get props "onClick") /\
  elProps (fst (CardBody props w)) !! "onClick" = Some (get props "onClick").
Proof.
  assert (Hrest : snd (destructure "onClick" props) !! "onClick" = None)
    by (rewrite destructure_rest, decide_True; reflexivity).
  repeat apply conj.
  - exact Hrest.
  - rewrite not_elem_of_dom. exact Hrest.
  - intros k Hk. rewrite destructure_rest, decide_False by congruence.
    reflexivity.
  - reflexivity.
  - rewrite CardBody_run. reflexivity.
  - rewrite lookup_computedAttrs; reflexivity.
  - rewrite CardBody_lookup; reflexivity.
Qed.

(** C10.  The component writes attributes under its nine names and no
    other: under any other name the rendered element has exactly what
    the caller supplied, present or absent, value unchanged.  In
    particular it never sets a border colour. *)
Theorem CardBody_frame (props : Props) (w : World) :
  dom (computedAttrs props w) = list_to_set ownNames /\
  (forall k : string,
     k ∉ ownNames ->
     computedAttrs props w !! k = None /\
     elProps (fst (CardBody props w)) !! k = props !! k) /\
  computedAttrs props w !! "borderColor" = None /\
  elProps (fst (CardBody props w)) !! "borderColor" = props !! "borderColor".
Proof.
  assert (Hframe : forall k : string,
             k ∉ ownNames ->
             computedAttrs props w !! k = None /\
             elProps (fst (CardBody props w)) !! k = props !! k).
  { intros k Hk.
    assert (Hnone : computedAttrs props w !! k = None).
    { apply not_elem_of_dom. rewrite dom_computedAttrs.
      rewrite elem_of_list_to_set. exact Hk. }
    split; [exact Hnone |].
    rewrite CardBody_lookup, decide_False.
    - rewrite Hnone. destruct (props !! k); reflexivity.
    - intros ->. apply Hk. compute_done. }
  split; [apply dom_computedAttrs |].
  split; [exact Hframe |].
  apply (Hframe "borderColor"). compute_done.
Qed.

End Merge.

(** ** Purity *)

Section Purity.
Context {World : Type} `{Ambient World}.

(** C6.  Two renders with the same props in worlds that agree on the
    theme mode produce the same element, attribute for attribute:
    nothing else in the world is looked at. *)
Theorem CardBody_deterministic (props1 props2 : Props) (w1 w2 : World) :
  props1 = props2 ->
  colorMode w1 = colorMode w2 ->
  elProps (fst (CardBody props1 w1)) = elProps (fst (CardBody props2 w2)) /\
  fst (CardBody props1 w1) = fst (CardBody props2 w2).
Proof.
  intros -> Hmode.
  assert (Hel : fst (CardBody props2 w1) = fst (CardBody props2 w2)).
  { rewrite !CardBody_run; simpl. f_equal.
    unfold computedAttrs. rewrite !useColorValue_run, Hmode. reflexivity. }
  rewrite Hel. split; reflexivity.
Qed.

(** C7.  A render hands the world back as it received it, theme mode
    included; so does each of the two colour resolutions it makes. *)
Theorem CardBody_leaves_world (props : Props) (w : World) :
  snd (CardBody props w) = w /\
  colorMode (snd (CardBody props w)) = colorMode w /\
  snd (useColorValue (JString "white") (JString "original.dark") w) = w /\
  snd (useColorValue (JString "original.dark") (JString "white") w) = w.
Proof.
  rewrite CardBody_run, !useColorValue_run; simpl.
  repeat split.
Qed.

End Purity.

(** ** The theorems at work on the sample renders *)

Lemma CardBody_light_witness :
  colorMode lightWorld = Light /\
  computedAttrs loudProps lightWorld !! "bg" = Some (JString "white") /\
  elProps (fst (CardBody quietProps lightWorld)) !! "color"
    = Some (default (JString "original.dark") (quietProps !! "color")).
Proof.
  assert (Hmode : colorMode lightWorld = Light) by reflexivity.
  destruct (CardBody_light loudProps lightWorld Hmode) as (_ & _ & Hbg & _).
  destruct (CardBody_light quietProps lightWorld Hmode) as (_ & _ & _ & _ & _ & Hfg).
  repeat apply conj; [exact Hmode | exact Hbg | exact Hfg].
Defined.

Lemma CardBody_dark_mirror_witness :
  colorMode darkWorld = Dark /\
  colorMode lightWorld = opposite (colorMode darkWorld) /\
  computedAttrs quietProps darkWorld !! "bg" = Some (JString "original.dark") /\
  computedAttrs quietProps darkWorld !! "color" = Some (JString "white") /\
  computedAttrs quietProps darkWorld !! "color"
    = computedAttrs loudProps lightWorld !! "bg".
Proof.
  assert (Hmode : colorMode darkWorld = Dark) by reflexivity.
  assert (Hopp : colorMode lightWorld = opposite (colorMode darkWorld))
    by reflexivity.
  destruct (CardBody_dark_mirror quietProps darkWorld) as [Hdark Hmirror].
  destruct (Hdark Hmode) as (_ & _ & Hbg & Hfg & _).
  destruct (Hmirror loudProps lightWorld Hopp) as (_ & Hswap & _).
  repeat apply conj; [exact Hmode | exact Hopp | exact Hbg | exact Hfg | exact Hswap].
Defined.

Lemma CardBody_caller_overrides_witness :
  "bg" ∈ overridable /\
  loudProps !! "bg" = Some (JString "red.500") /\
  elProps (fst (CardBody loudProps lightWorld)) !! "bg" = Some (JString "red.500").
Proof.
  assert (Hin : "bg" ∈ overridable) by compute_done.
  assert (Hsupplied : loudProps !! "bg" = Some (JString "red.500"))
    by (vm_compute; reflexivity).
  destruct (CardBody_caller_overrides loudProps lightWorld "bg" (JString "red.500")
              Hin Hsupplied) as (_ & _ & _ & Hfinal).
  repeat apply conj; [exact Hin | exact Hsupplied | exact Hfinal].
Defined.

Lemma CardBody_onClick_forwarded_witness :
  loudProps !! "onClick" = Some (JFunction 1) /\
  elProps (fst (CardBody loudProps darkWorld)) !! "onClick" = Some (JFunction 1) /\
  quietProps !! "onClick" = None /\
  get (elProps (fst (CardBody quietProps darkWorld))) "onClick" = JUndefined.
Proof.
  assert (Hwith : loudProps !! "onClick" = Some (JFunction 1))
    by (vm_compute; reflexivity).
  assert (Hwithout : quietProps !! "onClick" = None)
    by (vm_compute; reflexivity).
  destruct (CardBody_onClick_forwarded loudProps darkWorld) as (_ & Hfwd & _).
  destruct (CardBody_onClick_forwarded quietProps darkWorld) as (_ & _ & Hnone).
  destruct (Hfwd (JFunction 1) Hwith) as [Hloud _].
  destruct (Hnone Hwithout) as [_ Hquiet].
  repeat apply conj; [exact Hwith | exact Hloud | exact Hwithout | exact Hquiet].
Defined.

Lemma CardBody_deterministic_witness :
  colorMode lightWorld = colorMode laterLightWorld /\
  lightWorld <> laterLightWorld /\
  fst (CardBody loudProps lightWorld) = fst (CardBody loudProps laterLightWorld).
Proof.
  assert (Hmode : colorMode lightWorld = colorMode laterLightWorld)
    by reflexivity.
  destruct (CardBody_deterministic loudProps loudProps lightWorld laterLightWorld
              eq_refl Hmode) as [_ Hsame].
  repeat apply conj; [exact Hmode | discriminate | exact Hsame].
Defined.

Lemma useColorValue_total_witness :
  colorMode lightWorld = Light /\
  colorMode darkWorld <> Light /\
  fst (useColorValue 1 2 lightWorld) = 1 /\
  fst (useColorValue 1 2 darkWorld) = 2 /\
  (fst (useColorValue 1 2 darkWorld) = 1 <-> colorMode darkWorld = Light).
Proof.
  assert (Hmode : colorMode lightWorld = Light) by reflexivity.
  assert (Hne : colorMode darkWorld <> Light) by discriminate.
  assert (Hdiff : 1 <> 2) by lia.
  destruct (useColorValue_total 1 2 lightWorld) as (_ & Hlight & _).
  destruct (useColorValue_total 1 2 darkWorld) as (_ & _ & Hdark & _ & Hiff).
  exact (conj Hmode (conj Hne (conj (Hlight Hmode)
           (conj (Hdark Hne) (Hiff Hdiff))))).
Defined.

Lemma CardBody_rest_has_no_onClick_witness :
  "p" <> "onClick" /\
  snd (destructure "onClick" loudProps) !! "onClick" = None /\
  snd (destructure "onClick" loudProps) !! "p" = loudProps !! "p" /\
  elProps (fst (CardBody loudProps lightWorld)) !! "onClick"
    = Some (get loudProps "onClick").
Proof.
  destruct (CardBody_rest_has_no_onClick loudProps lightWorld)
    as (Hgone & _ & Hkept & _ & _ & _ & Hfinal).
  assert (Hne : "p" <> "onClick") by discriminate.
  repeat apply conj; [exact Hne | exact Hgone | exact (Hkept "p" Hne) | exact Hfinal].
Defined.

Lemma CardBody_frame_witness :
  ("p" ∉ ownNames) /\
  ("borderColor" ∉ ownNames) /\
  elProps (fst (CardBody quietProps lightWorld)) !! "p" = quietProps !! "p" /\
  elProps (fst (CardBody loudProps lightWorld)) !! "borderColor" = None.
Proof.
  assert (Hp : "p" ∉ ownNames) by compute_done.
  assert (Hb : "borderColor" ∉ ownNames)
    by compute_done.
  destruct (CardBody_frame quietProps lightWorld) as (_ & Hquiet & _).
  destruct (CardBody_frame loudProps lightWorld) as (_ & Hloud & _).
  destruct (Hquiet "p" Hp) as [_ Hsame].
  destruct (Hloud "borderColor" Hb) as [_ Habsent].
  repeat apply conj; [exact Hp | exact Hb | exact Hsame | exact Habsent].
Defined.

(** * Further properties of the render *)

Section Shape.
Context {World : Type} `{Ambient World}.

(** The names of the rendered element: the component's nine and the
    caller's. *)
Lemma CardBody_dom_names (props : Props) (w : World) :
  dom (elProps (fst (CardBody props w))) = list_to_set ownNames ∪ dom props.
Proof.
  apply set_eq. intros k.
  rewrite <- (dom_computedAttrs props w), elem_of_union, !elem_of_dom.
  rewrite CardBody_lookup. case_decide as Hk.
  - subst k. rewrite lookup_computedAttrs; simpl.
    split; [intros _; left |]; eauto.
  - destruct (props !! k) as [v|]; split; eauto.
    intros [Hc | [x Hx]]; [exact Hc | discriminate].
Qed.

(** The names of the rendered element are the component's nine names
    together with the caller's: all nine are always there ([onClick]
    too, even when the caller has none), so the element has at least
    nine attributes and at most nine more than the caller passed. *)
Theorem CardBody_dom (props : Props) (w : World) :
  dom (elProps (fst (CardBody props w))) = list_to_set ownNames ∪ dom props /\
  9 <= size (elProps (fst (CardBody props w))) <= 9 + size props.
Proof.
  pose proof (CardBody_dom_names props w) as Hdom.
  split; [exact Hdom |].
  assert (Hnine : size (list_to_set ownNames : gset string) = 9)
    by (vm_compute; reflexivity).
  rewrite <- !size_dom, Hdom.
  split.
  - rewrite <- Hnine. apply subseteq_size, union_subseteq_l.
  - rewrite size_union_alt, Hnine.
    apply Nat.add_le_mono_l, subseteq_size, subseteq_difference_l.
    reflexivity.
Qed.

(** Rendering commutes with spreading more props: the attributes for
    [{...p, ...q}] are the attributes for [p] with [q] spread over them,
    [onClick] included.  With [p] empty: the element is the bare card
    with the caller's props written over it. *)
Theorem CardBody_spread (p q : Props) (w : World) :
  elProps (fst (CardBody (spread p q) w))
    = spread (elProps (fst (CardBody p w))) q /\
  elProps (fst (CardBody q w)) = spread (elProps (fst (CardBody ∅ w))) q.
Proof.
  assert (Hgen : forall p' : Props,
             elProps (fst (CardBody (spread p' q) w))
             = spread (elProps (fst (CardBody p' w))) q).
  { intros p'. apply map_eq. intros k.
    rewrite lookup_spread, !CardBody_lookup, !lookup_computedAttrs.
    unfold get. rewrite !lookup_spread.
    case_decide as Hk.
    - subst k. destruct (q !! "onClick"); reflexivity.
    - destruct (q !! k); [reflexivity |].
      destruct (p' !! k); [reflexivity |].
      reflexivity. }
  split; [apply Hgen |].
  rewrite <- Hgen. unfold spread. rewrite (right_id_L ∅ (∪)). reflexivity.
Qed.

(** Rendering a card from the attributes of a rendered card changes
    nothing, in whatever mode the second render happens: all nine names
    are taken, so the colours of the first render stay. *)
Theorem CardBody_rerender (props : Props) (w w' : World) :
  elProps (fst (CardBody (elProps (fst (CardBody props w))) w'))
    = elProps (fst (CardBody props w)).
Proof.
  apply map_eq. intros k.
  rewrite (CardBody_lookup (elProps (fst (CardBody props w))) w' k).
  case_decide as Hk.
  - subst k. unfold get at 1. rewrite !CardBody_lookup. reflexivity.
  - destruct (elProps (fst (CardBody props w)) !! k) as [v|] eqn:Hfinal;
      [reflexivity |].
    apply not_elem_of_dom.
    apply not_elem_of_dom in Hfinal.
    intros Hin. apply Hfinal.
    rewrite (CardBody_dom_names props w), elem_of_union. left.
    rewrite <- (dom_computedAttrs (elProps (fst (CardBody props w))) w').
    exact Hin.
Qed.

(** The mode shows in the element exactly when the caller leaves [bg] or
    [color] unset: two renders of the same props give the same element
    if and only if the modes agree or the caller supplies both colours. *)
Theorem CardBody_theme_sensitive (props : Props) (w1 w2 : World) :
  fst (CardBody props w1) = fst (CardBody props w2) <->
  colorMode w1 = colorMode w2 \/
  (is_Some (props !! "bg") /\ is_Some (props !! "color")).
Proof.
  split.
  - intros Heq.
    assert (Hat : forall k : string,
               elProps (fst (CardBody props w1)) !! k
               = elProps (fst (CardBody props w2)) !! k)
      by (intros k; rewrite Heq; reflexivity).
    pose proof (Hat "bg") as Hbg. pose proof (Hat "color") as Hfg.
    rewrite !CardBody_lookup, !lookup_computedAttrs in Hbg, Hfg.
    simpl in Hbg, Hfg.
    destruct (colorMode w1), (colorMode w2); auto; right;
      destruct (props !! "bg"), (props !! "color"); eauto; discriminate.
  - intros Hwhy.
    rewrite !CardBody_run; simpl. f_equal.
    destruct Hwhy as [Hmode | [[b Hb] [c Hc]]].
    + unfold computedAttrs. rewrite !useColorValue_run, Hmode. reflexivity.
    + apply map_eq. intros k.
      rewrite !lookup_spread, lookup_delete, !lookup_computedAttrs.
      destruct (decide ("onClick" = k)) as [<- | Hk]; [reflexivity |].
      destruct (props !! k) as [v|] eqn:Hprops; [reflexivity |].
      repeat (case_decide; [subst k; try reflexivity; congruence |]).
      reflexivity.
Qed.

(** The component puts no value of its own on the element except strings
    and the [undefined] of a missing [onClick]: any other value found
    there, a handler in particular, is the caller's, under the same
    name. *)
Theorem CardBody_values_from_caller (props : Props) (w : World)
    (k : string) (v : JSValue) :
  elProps (fst (CardBody props w)) !! k = Some v ->
  v <> JUndefined ->
  (forall s : string, v <> JString s) ->
  props !! k = Some v.
Proof.
  rewrite CardBody_lookup, lookup_computedAttrs. unfold get.
  intros Hk Hundef Hstr.
  case_decide as Hon.
  - subst k. destruct (props !! "onClick") as [f|]; [exact Hk |].
    simpl in Hk. congruence.
  - destruct (props !! k) as [u|]; [exact Hk |].
    exfalso.
    repeat (case_decide;
            [ injection Hk as <-;
              first [ destruct (colorMode w); eapply Hstr; reflexivity
                    | eapply Hstr; reflexivity
                    | congruence ]
            | ]).
    discriminate.
Qed.


(** Passing a default explicitly is the same as not passing it: if the
    component would compute [d] under [k] without the caller's [k], then
    the caller's [k = d] leaves the element as it would have been. *)
Theorem CardBody_redundant_override (props : Props) (w : World)
    (k : string) (d : JSValue) :
  computedAttrs (delete k props) w !! k = Some d ->
  fst (CardBody (<[k := d]> props) w) = fst (CardBody (delete k props) w).
Proof.
  intros Hd.
  assert (Hattrs : elProps (fst (CardBody (<[k := d]> props) w))
                   = elProps (fst (CardBody (delete k props) w))).
  { apply map_eq. intros j.
    rewrite !CardBody_lookup.
    destruct (decide (k = j)) as [<- | Hkj].
    - rewrite lookup_insert_eq, lookup_delete_eq, Hd.
      case_decide as Hon; [| reflexivity].
      subst k. rewrite lookup_computedAttrs in Hd. simpl in Hd.
      unfold get in *. rewrite lookup_insert_eq, lookup_delete_eq in *.
      simpl in *. congruence.
    - rewrite lookup_insert_ne, lookup_delete_ne by exact Hkj.
      rewrite !lookup_computedAttrs. unfold get.
      case_decide as Hon.
      + subst j. rewrite lookup_insert_ne, lookup_delete_ne by exact Hkj.
        reflexivity.
      + reflexivity. }
  rewrite !CardBody_run in *; simpl in *. f_equal. exact Hattrs.
Qed.

End Shape.

(** ** The further properties on the sample renders *)

Lemma CardBody_theme_sensitive_witness :
  fst (CardBody quietProps lightWorld) <> fst (CardBody quietProps darkWorld) /\
  fst (CardBody quietProps lightWorld) = fst (CardBody quietProps laterLightWorld).
Proof.
  split.
  - intros Heq.
    apply (proj1 (CardBody_theme_sensitive quietProps lightWorld darkWorld)) in Heq.
    destruct Heq as [Hmode | [[b Hb] _]]; discriminate.
  - apply (proj2 (CardBody_theme_sensitive quietProps lightWorld laterLightWorld)).
    left. reflexivity.
Defined.

Lemma CardBody_values_from_caller_witness :
  elProps (fst (CardBody loudProps lightWorld)) !! "onClick" = Some (JFunction 1) /\
  JFunction 1 <> JUndefined /\
  (forall s : string, JFunction 1 <> JString s) /\
  loudProps !! "onClick" = Some (JFunction 1).
Proof.
  assert (Hfinal : elProps (fst (CardBody loudProps lightWorld)) !! "onClick"
                   = Some (JFunction 1)) by (vm_compute; reflexivity).
  assert (Hundef : JFunction 1 <> JUndefined) by discriminate.
  assert (Hstr : forall s : string, JFunction 1 <> JString s)
    by (intros s; discriminate).
  exact (conj Hfinal (conj Hundef (conj Hstr
           (CardBody_values_from_caller loudProps lightWorld "onClick"
              (JFunction 1) Hfinal Hundef Hstr)))).
Defined.


Lemma CardBody_redundant_override_witness :
  computedAttrs (delete "bg" loudProps) darkWorld !! "bg"
    = Some (JString "original.dark") /\
  fst (CardBody (<["bg" := JString "original.dark"]> loudProps) darkWorld)
    = fst (CardBody (delete "bg" loudProps) darkWorld).
Proof.
  assert (Hd : computedAttrs (delete "bg" loudProps) darkWorld !! "bg"
               = Some (JString "original.dark")) by (vm_compute; reflexivity).
  exact (conj Hd (CardBody_redundant_override loudProps darkWorld "bg"
                    (JString "original.dark") Hd)).
Defined.
